(** * MsSQL to GCS operator: schema inference of [MSSQLToGCSOperator]

    A shallow embedding of
    [airflow/providers/google/cloud/transfers/mssql_to_gcs.py].

    The operator's methods run on dynamically typed Python values, can raise,
    and ([query]) talk to a database driver.  The embedding keeps those three
    aspects: a small universe of Python values, an error monad for the
    methods that only compute, and explicit state passing over the driver's
    world for [query]. *)

From Stdlib Require Import ZArith Ascii String.
From stdpp Require Import base option list gmap strings.

Local Open Scope string_scope.

#[local] Set Warnings "-register-all".

(** ** Python values and exceptions *)

(** The values the operator's methods can be handed: the scalars and tuples
    of a cursor description, dictionaries with string keys, class objects
    (such as [int], [str], [datetime.datetime], which is how an ODBC driver
    reports a column's type code), method objects, and instances of classes
    defined elsewhere (hooks, connections, cursors), which are opaque here. *)
Inductive PyVal : Type :=
| PyNone
| PyBool (b : bool)
| PyInt (z : Z)
| PyStr (s : string)
| PyTuple (items : list PyVal)
| PyDict (entries : list (string * PyVal))
| PyType (name : string)
| PyMethod (name : string)
| PyObject (cls : string) (id : nat).

Inductive PyExc : Type :=
| AttributeError
| IndexError
| KeyError
| TypeError
| DriverError (msg : string).

(** Outcome of evaluating a Python expression: a value, or a raised
    exception that propagates to the caller. *)
Inductive result (A : Type) : Type :=
| Ok (a : A)
| Raise (e : PyExc).

Arguments Ok {A} a.
Arguments Raise {A} e.

#[global] Instance result_ret : MRet result := fun A a => Ok a.
#[global] Instance result_bind : MBind result := fun A B k m =>
  match m with
  | Ok a => k a
  | Raise e => Raise e
  end.

Definition raised {A : Type} (r : result A) : Prop :=
  match r with
  | Ok _ => False
  | Raise _ => True
  end.

(** ** Built-in operations used by the operator *)

Module Py.

(** [str.lower] and [str.upper] on strings of bytes: the ASCII letters
    change case, every other byte is left as it is. *)
Definition lower_ascii (c : ascii) : ascii :=
  let n := N_of_ascii c in
  if ((65 <=? n) && (n <=? 90))%N then ascii_of_N (n + 32) else c.

Definition upper_ascii (c : ascii) : ascii :=
  let n := N_of_ascii c in
  if ((97 <=? n) && (n <=? 122))%N then ascii_of_N (n - 32) else c.

Fixpoint lower (s : string) : string :=
  match s with
  | EmptyString => EmptyString
  | String c s' => String (lower_ascii c) (lower s')
  end.

Fixpoint upper (s : string) : string :=
  match s with
  | EmptyString => EmptyString
  | String c s' => String (upper_ascii c) (upper s')
  end.

(** [s.replace(old, new)] for a one-character [old], as in the call
    [replace(" ", "_")]: every occurrence of [old] becomes [new]. *)
Fixpoint replace (old : ascii) (new : string) (s : string) : string :=
  match s with
  | EmptyString => EmptyString
  | String c s' =>
      if Ascii.eqb c old then new ++ replace old new s'
      else String c (replace old new s')
  end.

(** [o.__name__]: classes and methods carry a name, which is a [str];
    nothing else in [PyVal] has the attribute. *)
Definition getattr___name__ (o : PyVal) : result string :=
  match o with
  | PyType name => Ok name
  | PyMethod name => Ok name
  | _ => Raise AttributeError
  end.

(** [o.replace(" ", "_")]-style call: among plain data (see [plain] below)
    only [str] has the method. *)
Definition call_replace (o : PyVal) (old : ascii) (new : string) : result PyVal :=
  match o with
  | PyStr s => Ok (PyStr (replace old new s))
  | _ => Raise AttributeError
  end.

(** [o[i]] for a non-negative literal index; the first three cases and the
    scalars are as the interpreter has them (see [plain] below for the
    rest). *)
Definition getitem (o : PyVal) (i : nat) : result PyVal :=
  match o with
  | PyTuple items =>
      match items !! i with
      | Some v => Ok v
      | None => Raise IndexError
      end
  | PyStr s =>
      match String.get i s with
      | Some c => Ok (PyStr (String c EmptyString))
      | None => Raise IndexError
      end
  | PyDict _ => Raise KeyError
  | _ => Raise TypeError
  end.

(** Truth value of an object, as [if o] tests it. *)
Definition truthy (o : PyVal) : bool :=
  match o with
  | PyNone => false
  | PyBool b => b
  | PyInt z => negb (z =? 0)%Z
  | PyStr s => negb (String.eqb s EmptyString)
  | PyTuple items => negb (bool_decide (items = []))
  | PyDict entries => negb (bool_decide (entries = []))
  | PyType _ | PyMethod _ | PyObject _ _ => true
  end.

Fixpoint hashable (o : PyVal) : bool :=
  match o with
  | PyDict _ => false
  | PyTuple items => forallb hashable items
  | _ => true
  end.

Fixpoint assoc (entries : list (string * PyVal)) (k : string) : option PyVal :=
  match entries with
  | [] => None
  | (k', v) :: rest => if String.eqb k' k then Some v else assoc rest k
  end.

(** [d.get(key, default)] on a dictionary with string keys. *)
Definition dict_get (entries : list (string * PyVal)) (key fallback : PyVal)
  : result PyVal :=
  if hashable key then
    match key with
    | PyStr k => Ok (default fallback (assoc entries k))
    | _ => Ok fallback
    end
  else Raise TypeError.

(** [o.get]: the attribute itself, before it is called.  Of the values of
    [PyVal] only dictionaries have it. *)
Definition getattr_get (o : PyVal) : result (PyVal -> PyVal -> result PyVal) :=
  match o with
  | PyDict entries => Ok (dict_get entries)
  | _ => Raise AttributeError
  end.

(** [k in d] and [d[k]] on a dictionary from strings to strings. *)
Definition dict_contains (d : gmap string string) (k : string) : bool :=
  bool_decide (is_Some (d !! k)).

Definition dict_getitem (d : gmap string string) (k : string) : result string :=
  match d !! k with
  | Some v => Ok v
  | None => Raise KeyError
  end.

(** [s.isascii()]: every character of [s] is below 128.  On such a string
    [lower] and [upper] above are exactly [str.lower] and [str.upper]. *)
Definition isascii (s : string) : bool :=
  forallb (fun c => (N_of_ascii c <? 128)%N) (list_ascii_of_string s).


End Py.

(** ** The operator *)

(** An instance, with the attributes the methods below read: [mssql_conn_id]
    is set by [__init__], [sql] by the base class's initialiser. *)
Record MSSQLToGCSOperator : Type := {
  mssql_conn_id : string;
  sql : string;
}.

(** What the class body binds a name to. *)
Inductive member : Type :=
| ClassAttribute (v : PyVal)
| Method
| ClassMethod.

Definition class_body : list (string * member) :=
  [ ("ui_color", ClassAttribute (PyStr "#e0a98c"));
    ("__init__", Method);
    ("query", Method);
    ("field_to_bigquery", Method);
    ("type_map", ClassMethod);
    ("convert_type", ClassMethod) ].

Fixpoint class_lookup (body : list (string * member)) (attr : string) : option member :=
  match body with
  | [] => None
  | (name, m) :: rest => if String.eqb name attr then Some m else class_lookup rest attr
  end.

(** [self.attr]: the instance's own attributes first, then the class body.
    A plain class attribute is returned as it is; a function, decorated with
    [classmethod] or not, comes back as a method object bound to the instance
    or to the class. *)
Definition getattr_self (self : MSSQLToGCSOperator) (attr : string) : result PyVal :=
  if String.eqb attr "mssql_conn_id" then Ok (PyStr (mssql_conn_id self))
  else if String.eqb attr "sql" then Ok (PyStr (sql self))
  else
    match class_lookup class_body attr with
    | Some (ClassAttribute v) => Ok v
    | Some Method => Ok (PyMethod attr)
    | Some ClassMethod => Ok (PyMethod attr)
    | None => Raise AttributeError
    end.

(** The class object itself, the first argument of its class methods. *)
Definition MSSQLToGCSOperator_class : PyVal := PyType "MSSQLToGCSOperator".

(** The dictionary literal of [type_map]. *)
Definition schema_dict : gmap string string :=
  list_to_map
    [ ("int", "INTEGER");
      ("tinyint", "INTEGER");
      ("smallint", "INTEGER");
      ("bigint", "INTEGER");
      ("bit", "BOOLEAN");
      ("bool", "BOOLEAN");
      ("char", "STRING");
      ("varchar", "STRING");
      ("text", "STRING");
      ("nchar", "STRING");
      ("nvarchar", "STRING");
      ("ntext", "STRING");
      ("uuid", "STRING");
      ("str", "STRING");
      ("money", "NUMERIC");
      ("numeric", "NUMERIC");
      ("smallmoney", "NUMERIC");
      ("decimal", "NUMERIC");
      ("datetime", "DATETIME");
      ("datetime2", "DATETIME");
      ("smalldatetime", "DATETIME");
      ("date", "DATE");
      ("time", "TIME");
      ("float", "FLOAT");
      ("real", "FLOAT");
      ("double", "FLOAT") ].

(** [type_map(cls, mssql_type)] *)
Definition type_map (cls : PyVal) (mssql_type : PyVal) : result string :=
  value ← Py.getattr___name__ mssql_type;
  if Py.dict_contains schema_dict (Py.lower value)
  then Py.dict_getitem schema_dict (Py.lower value)
  else Ok "STRING".

(** [field_to_bigquery(self, field)].  The entries of the dictionary display
    are evaluated from top to bottom, and within [self.type_map.get(field[1],
    "STRING")] the callee [self.type_map.get] before its arguments. *)
Definition field_to_bigquery (self : MSSQLToGCSOperator) (field : PyVal) : result PyVal :=
  field0 ← Py.getitem field 0;
  name ← Py.call_replace field0 " " "_";
  bound ← getattr_self self "type_map";
  get ← Py.getattr_get bound;
  field1 ← Py.getitem field 1;
  type ← get field1 (PyStr "STRING");
  field6 ← Py.getitem field 6;
  Ok (PyDict
        [ ("name", name);
          ("type", type);
          ("mode", if Py.truthy field6 then PyStr "NULLABLE" else PyStr "REQUIRED") ]).

(** [convert_type(self, value, schema_type)]: a class method, so its first
    parameter, though named [self], receives the class. *)
Definition convert_type (self : PyVal) (value : PyVal) (schema_type : PyVal) : result PyVal :=
  Ok value.

(** *** The database side

    [query] reaches the database through objects of other packages: the
    hook built from the connection id, what [get_conn] gives back, the raw
    connection and its cursor.  They are taken as an interface over some
    world [W] that holds whatever the driver and the server keep; each call
    either raises or returns a value and the next world. *)
Record Driver (W : Type) : Type := {
  OdbcHook : string -> W -> result (PyVal * W);
  get_conn : PyVal -> W -> result (PyVal * W);
  raw_connection : PyVal -> W -> result (PyVal * W);
  cursor : PyVal -> W -> result (PyVal * W);
  execute : PyVal -> string -> W -> result (PyVal * W);
}.

Arguments OdbcHook {W} _ _ _.
Arguments get_conn {W} _ _ _.
Arguments raw_connection {W} _ _ _.
Arguments cursor {W} _ _ _.
Arguments execute {W} _ _ _ _.

Section Query.

Context {W : Type}.
Variable driver : Driver W.

Definition io (A : Type) : Type := W -> result (A * W).

Definition io_ret {A : Type} (a : A) : io A := fun w => Ok (a, w).

Definition io_bind {A B : Type} (m : io A) (k : A -> io B) : io B :=
  fun w =>
    match m w with
    | Ok (a, w') => k a w'
    | Raise e => Raise e
    end.

Local Notation "'call' x ':=' m 'in' k" := (io_bind m (fun x => k))
  (at level 10, x name, m at level 100, k at level 200).

(** [query(self)]: the body ends after [cursor.execute(self.sql)], so the
    call evaluates to [None]. *)
Definition query (self : MSSQLToGCSOperator) : io PyVal :=
  call mssql := OdbcHook driver (mssql_conn_id self) in
  call engine := get_conn driver mssql in
  call conn := raw_connection driver engine in
  call cursor := cursor driver conn in
  call _ := execute driver cursor (sql self) in
  io_ret PyNone.

End Query.

(** A driver small enough to run: the world is the list of statements the
    server has executed, latest first; every call succeeds. *)
Definition recording_driver : Driver (list string) := {|
  OdbcHook := fun conn_id w => Ok (PyObject "OdbcHook" 0, w);
  get_conn := fun hook w => Ok (PyObject "Engine" 1, w);
  raw_connection := fun engine w => Ok (PyObject "Connection" 2, w);
  cursor := fun conn w => Ok (PyObject "Cursor" 3, w);
  execute := fun cur statement w => Ok (cur, statement :: w);
|}.

(** The operator of the class's docstring example. *)
Definition export_customers : MSSQLToGCSOperator := {|
  mssql_conn_id := "mssql_default";
  sql := "SELECT * FROM dbo.Customers;";
|}.

(** ** The type mapping as the specification lists it *)

Definition integer_family : list string := ["int"; "tinyint"; "smallint"; "bigint"].
Definition boolean_family : list string := ["bit"; "bool"].
Definition text_family : list string :=
  ["char"; "varchar"; "text"; "nchar"; "nvarchar"; "ntext"; "uuid"; "str"].
Definition decimal_family : list string := ["money"; "numeric"; "smallmoney"; "decimal"].
Definition datetime_family : list string := ["datetime"; "datetime2"; "smalldatetime"].
Definition floating_family : list string := ["float"; "real"; "double"].

(** Source tag and destination tag, family by family. *)
Definition listed_table : list (string * string) :=
  ((fun t => (t, "INTEGER")) <$> integer_family)
  ++ ((fun t => (t, "BOOLEAN")) <$> boolean_family)
  ++ ((fun t => (t, "STRING")) <$> text_family)
  ++ ((fun t => (t, "NUMERIC")) <$> decimal_family)
  ++ ((fun t => (t, "DATETIME")) <$> datetime_family)
  ++ [("date", "DATE"); ("time", "TIME")]
  ++ ((fun t => (t, "FLOAT")) <$> floating_family).

Definition listed_tags : list string := listed_table.*1.

(** Name sanitisation as the specification words it, for one character: a
    space becomes an underscore, any other character stays. *)
Definition sanitize_char (c : ascii) : ascii :=
  if Ascii.eqb c " " then "_"%char else c.

(** The destination tags that occur in [type_map]: the values of its
    dictionary literal and the fallback. *)
Definition destination_tags : list string :=
  ["INTEGER"; "BOOLEAN"; "STRING"; "NUMERIC"; "DATETIME"; "DATE"; "TIME"; "FLOAT"].

(** A driver whose server rejects every statement: all calls succeed up to
    [execute], which raises. *)
Definition rejecting_driver : Driver (list string) := {|
  OdbcHook := fun conn_id w => Ok (PyObject "OdbcHook" 0, w);
  get_conn := fun hook w => Ok (PyObject "Engine" 1, w);
  raw_connection := fun engine w => Ok (PyObject "Connection" 2, w);
  cursor := fun conn w => Ok (PyObject "Cursor" 3, w);
  execute := fun cur statement w => Raise (DriverError statement);
|}.

(** * Properties *)

(** ** Strings *)

Section Strings.

Lemma lower_upper_ascii (c : ascii) :
  Py.lower_ascii (Py.upper_ascii c) = Py.lower_ascii c.
Proof. destruct c as [[] [] [] [] [] [] [] []]; reflexivity. Qed.

Lemma lower_upper (s : string) : Py.lower (Py.upper s) = Py.lower s.
Proof.
  induction s as [|c s IH]; simpl; [reflexivity|].
  rewrite lower_upper_ascii, IH. reflexivity.
Qed.

Lemma lower_lower_ascii (c : ascii) :
  Py.lower_ascii (Py.lower_ascii c) = Py.lower_ascii c.
Proof. destruct c as [[] [] [] [] [] [] [] []]; reflexivity. Qed.

Lemma lower_idemp (s : string) : Py.lower (Py.lower s) = Py.lower s.
Proof.
  induction s as [|c s IH]; simpl; [reflexivity|].
  rewrite lower_lower_ascii, IH. reflexivity.
Qed.

(** [replace(" ", "_")] keeps the length and acts position by position. *)
Lemma replace_space_cons (c : ascii) (s : string) :
  Py.replace " " "_" (String c s) = String (sanitize_char c) (Py.replace " " "_" s).
Proof.
  unfold sanitize_char. simpl. destruct (Ascii.eqb c " "); reflexivity.
Qed.

Lemma replace_space_length (s : string) :
  String.length (Py.replace " " "_" s) = String.length s.
Proof.
  induction s as [|c s IH]; [reflexivity|].
  rewrite replace_space_cons. simpl. rewrite IH. reflexivity.
Qed.

Lemma replace_space_get (s : string) (i : nat) :
  String.get i (Py.replace " " "_" s) = sanitize_char <$> String.get i s.
Proof.
  revert i. induction s as [|c s IH]; intros i; [reflexivity|].
  rewrite replace_space_cons. destruct i as [|i]; simpl; [reflexivity|apply IH].
Qed.

End Strings.

(** ** The lookup table *)

Section Table.

(** The dictionary literal and the specification's families hold the same
    entries. *)
Lemma schema_dict_listed (k d : string) :
  schema_dict !! k = Some d <-> (k, d) ∈ listed_table.
Proof.
  unfold schema_dict. rewrite <- elem_of_list_to_map.
  - reflexivity.
  - apply (bool_decide_unpack _). vm_compute. exact I.
Qed.

End Table.

(** ** [type_map] *)

Section TypeMap.

Variable cls : PyVal.

Lemma getattr___name___raises (x : PyVal) (e : PyExc) :
  Py.getattr___name__ x = Raise e -> e = AttributeError.
Proof. destruct x; simpl; congruence. Qed.

(** With a name in hand the two dictionary accesses of the [if] agree, so
    the [KeyError] of [schema_dict[...]] cannot happen. *)
Lemma type_map_named (x : PyVal) (n : string) :
  Py.getattr___name__ x = Ok n ->
  type_map cls x = Ok (default "STRING" (schema_dict !! Py.lower n)).
Proof.
  intros Hn. unfold type_map. rewrite Hn.
  change (mbind ?k (Ok n)) with (k n). cbv beta.
  unfold Py.dict_contains, Py.dict_getitem.
  destruct (schema_dict !! Py.lower n) as [d|] eqn:E.
  - rewrite bool_decide_eq_true_2 by eauto. reflexivity.
  - rewrite bool_decide_eq_false_2 by (intros [? ?]; discriminate). reflexivity.
Qed.

Lemma type_map_unnamed (x : PyVal) (e : PyExc) :
  Py.getattr___name__ x = Raise e -> type_map cls x = Raise AttributeError.
Proof.
  intros He. unfold type_map. rewrite He.
  rewrite (getattr___name___raises x e He). reflexivity.
Qed.

Lemma listed_tag_lower (k d : string) : (k, d) ∈ listed_table -> Py.lower k = k.
Proof.
  revert k d.
  assert (H : Forall (fun p => Py.lower p.1 = p.1) listed_table)
    by (vm_compute; repeat constructor).
  intros k d Hin. rewrite Forall_forall in H. exact (H (k, d) Hin).
Qed.

Lemma listed_tags_table (k : string) :
  k ∈ listed_tags <-> exists d, (k, d) ∈ listed_table.
Proof.
  unfold listed_tags. rewrite list_elem_of_fmap. split.
  - intros [[k' d] [-> Hin]]. exists d. exact Hin.
  - intros [d Hin]. exists (k, d). split; [reflexivity|exact Hin].
Qed.

End TypeMap.

(** C3, as stated, at a plain string tag: [type_map("int")] reads
    ["int".__name__], which a [str] does not have, and raises instead of
    returning [INTEGER]. *)
Lemma type_map_plain_string_tag_raises :
  type_map MSSQLToGCSOperator_class (PyStr "int") = Raise AttributeError
  /\ type_map MSSQLToGCSOperator_class (PyStr "int") <> Ok "INTEGER".
Proof. split; [reflexivity|discriminate]. Qed.

(** C3, amended: on every argument that carries a [__name__], [type_map]
    returns and never raises; a name found in the listed table maps to its
    listed destination tag, the look-up being made on the lower-cased name,
    and a name whose lower-cased form is not in the table maps to [STRING]. *)
Theorem type_map_total_on_named (cls x : PyVal) (n : string) :
  Py.getattr___name__ x = Ok n ->
  (forall dest, (n, dest) ∈ listed_table -> type_map cls x = Ok dest)
  /\ (forall dest, (Py.lower n, dest) ∈ listed_table -> type_map cls x = Ok dest)
  /\ (Py.lower n ∉ listed_tags -> type_map cls x = Ok "STRING")
  /\ (exists dest, type_map cls x = Ok dest).
Proof.
  intros Hn. pose proof (type_map_named cls x n Hn) as Hmap.
  assert (Hlow : forall dest, (Py.lower n, dest) ∈ listed_table -> type_map cls x = Ok dest).
  { intros dest Hin. apply schema_dict_listed in Hin. rewrite Hmap, Hin. reflexivity. }
  split; [|split; [|split]].
  - intros dest Hin. apply Hlow. rewrite (listed_tag_lower n dest Hin). exact Hin.
  - exact Hlow.
  - intros Hout. rewrite Hmap.
    destruct (schema_dict !! Py.lower n) as [d|] eqn:E; [|reflexivity].
    exfalso. apply Hout, listed_tags_table. exists d. apply schema_dict_listed, E.
  - eexists. exact Hmap.
Qed.

Lemma type_map_total_on_named_witness :
  Py.getattr___name__ (PyType "Decimal") = Ok "Decimal"
  /\ type_map MSSQLToGCSOperator_class (PyType "Decimal") = Ok "NUMERIC".
Proof.
  split; [reflexivity|].
  refine (proj1 (proj2 (type_map_total_on_named MSSQLToGCSOperator_class
                          (PyType "Decimal") "Decimal" eq_refl)) "NUMERIC" _).
  apply (bool_decide_unpack _). vm_compute. exact I.
Defined.

(** C4, as stated, at the table's tag ["datetime2"]: applied to the tag
    itself and to its upper-cased form, [type_map] raises on both sides, so
    neither call yields a destination tag to compare. *)
Lemma type_map_string_tag_upper_raises :
  Py.upper "datetime2" = "DATETIME2"
  /\ type_map MSSQLToGCSOperator_class (PyStr "datetime2") = Raise AttributeError
  /\ type_map MSSQLToGCSOperator_class (PyStr (Py.upper "datetime2")) = Raise AttributeError
  /\ type_map MSSQLToGCSOperator_class (PyStr "datetime2") <> Ok "DATETIME".
Proof. split; [|split; [|split]]; try reflexivity. discriminate. Qed.

(** C4, amended: for every tag [T] of the mapping table, an argument whose
    [__name__] is [T] and one whose [__name__] is [T] in upper case are
    mapped alike, to the table's entry for [T]. *)
Theorem type_map_case_insensitive (cls x y : PyVal) (T : string) :
  is_Some (schema_dict !! T) ->
  Py.getattr___name__ x = Ok T ->
  Py.getattr___name__ y = Ok (Py.upper T) ->
  type_map cls x = type_map cls y
  /\ exists dest, schema_dict !! T = Some dest /\ type_map cls y = Ok dest.
Proof.
  intros [dest HT] Hx Hy.
  rewrite (type_map_named cls x T Hx), (type_map_named cls y _ Hy), lower_upper.
  split; [reflexivity|]. exists dest. split; [exact HT|].
  apply schema_dict_listed in HT as Hin.
  rewrite (listed_tag_lower T dest Hin), HT. reflexivity.
Qed.

Lemma type_map_case_insensitive_witness :
  is_Some (schema_dict !! "datetime2")
  /\ Py.upper "datetime2" = "DATETIME2"
  /\ type_map MSSQLToGCSOperator_class (PyType "datetime2")
     = type_map MSSQLToGCSOperator_class (PyType "DATETIME2")
  /\ exists dest, schema_dict !! "datetime2" = Some dest
       /\ type_map MSSQLToGCSOperator_class (PyType "DATETIME2") = Ok dest.
Proof.
  split; [exists "DATETIME"; reflexivity|].
  split; [reflexivity|].
  apply (type_map_case_insensitive MSSQLToGCSOperator_class
           (PyType "datetime2") (PyType "DATETIME2") "datetime2").
  - exists "DATETIME". reflexivity.
  - reflexivity.
  - reflexivity.
Defined.

(** C10: [type_map] goes through the argument's [__name__].  When the
    argument has one, the result is the table's entry for the lower-cased
    name, [STRING] when there is none; when it has none, as a plain string
    has none, the call raises [AttributeError]. *)
Theorem type_map_resolves_through_name (cls x : PyVal) :
  (forall n, Py.getattr___name__ x = Ok n ->
     type_map cls x = Ok (default "STRING" (schema_dict !! Py.lower n)))
  /\ (raised (Py.getattr___name__ x) -> type_map cls x = Raise AttributeError)
  /\ (forall tag, type_map cls (PyStr tag) = Raise AttributeError).
Proof.
  split; [|split].
  - apply type_map_named.
  - destruct (Py.getattr___name__ x) as [n|e] eqn:E; [intros []|intros _].
    exact (type_map_unnamed cls x e E).
  - intros tag. reflexivity.
Qed.

Lemma type_map_resolves_through_name_witness :
  type_map MSSQLToGCSOperator_class (PyType "Float") = Ok "FLOAT"
  /\ type_map MSSQLToGCSOperator_class (PyType "Decimal128") = Ok "STRING"
  /\ type_map MSSQLToGCSOperator_class PyNone = Raise AttributeError
  /\ type_map MSSQLToGCSOperator_class (PyStr "float") = Raise AttributeError.
Proof.
  split; [|split; [|split]].
  - exact (proj1 (type_map_resolves_through_name MSSQLToGCSOperator_class (PyType "Float"))
             "Float" eq_refl).
  - exact (proj1 (type_map_resolves_through_name MSSQLToGCSOperator_class
                    (PyType "Decimal128")) "Decimal128" eq_refl).
  - exact (proj1 (proj2 (type_map_resolves_through_name MSSQLToGCSOperator_class PyNone)) I).
  - exact (proj2 (proj2 (type_map_resolves_through_name MSSQLToGCSOperator_class PyNone))
             "float").
Defined.

(** C8: [convert_type] returns the value it is given, whatever the value
    and the schema type, and does not raise. *)
Theorem convert_type_identity (cls value schema_type : PyVal) :
  convert_type cls value schema_type = Ok value.
Proof. reflexivity. Qed.

(** ** [field_to_bigquery] *)

Section FieldToBigquery.

Variable self : MSSQLToGCSOperator.

(** [self.type_map] is the class method, bound; it is not a dictionary. *)
Lemma self_type_map_is_method :
  getattr_self self "type_map" = Ok (PyMethod "type_map").
Proof. reflexivity. Qed.

Lemma method_has_no_get (name : string) :
  raised (Py.getattr_get (PyMethod name)).
Proof. exact I. Qed.

(** Once the name has been sanitised, evaluation stops at
    [self.type_map.get]. *)
Lemma field_to_bigquery_stops_at_get (field : PyVal) (name : string) :
  Py.getitem field 0 = Ok (PyStr name) ->
  field_to_bigquery self field = Raise AttributeError.
Proof. intros H0. unfold field_to_bigquery. rewrite H0. reflexivity. Qed.

(** No argument makes the method return. *)
Lemma field_to_bigquery_never_returns (field : PyVal) :
  raised (field_to_bigquery self field).
Proof.
  unfold field_to_bigquery.
  destruct (Py.getitem field 0) as [field0|e]; [|exact I].
  destruct field0; exact I.
Qed.

(** A dictionary, by contrast, does have [get]. *)
Lemma dict_has_get (entries : list (string * PyVal)) (key : string) :
  (get ← Py.getattr_get (PyDict entries); get (PyStr key) (PyStr "STRING"))
  = Ok (default (PyStr "STRING") (Py.assoc entries key)).
Proof. reflexivity. Qed.

End FieldToBigquery.

(** C2: on a well-formed tuple, a name at position 0, a type tag at
    position 1 and a nullable flag at position 6, the call raises
    [AttributeError] at [self.type_map.get] and returns no descriptor;
    the tag is never handed to [type_map]. *)
Theorem field_to_bigquery_well_formed_raises (self : MSSQLToGCSOperator)
    (name : string) (tag a b c d nullable : PyVal) (rest : list PyVal) :
  field_to_bigquery self (PyTuple (PyStr name :: tag :: a :: b :: c :: d :: nullable :: rest))
  = Raise AttributeError.
Proof. apply (field_to_bigquery_stops_at_get self _ name). reflexivity. Qed.

(** C5: the name expression turns ['Customer ID'] into ['Customer_ID'], but
    the call on that column raises before a descriptor holding it exists. *)
Theorem field_to_bigquery_Customer_ID (self : MSSQLToGCSOperator) :
  Py.call_replace (PyStr "Customer ID") " " "_" = Ok (PyStr "Customer_ID")
  /\ field_to_bigquery self
       (PyTuple [PyStr "Customer ID"; PyType "int"; PyNone; PyNone; PyNone; PyNone; PyBool false])
     = Raise AttributeError.
Proof. split; reflexivity. Qed.

(** C6: with the nullable flag set and with it cleared, the call raises
    alike; position 6 is never read and no mode is produced. *)
Theorem field_to_bigquery_mode_not_reached (self : MSSQLToGCSOperator) (nullable : bool) :
  field_to_bigquery self
    (PyTuple [PyStr "Total"; PyType "Decimal"; PyNone; PyNone; PyNone; PyNone; PyBool nullable])
  = Raise AttributeError.
Proof. reflexivity. Qed.

(** C7: the call on [('Order Date', 'datetime2', ..., True)] raises
    [AttributeError]; it does not return the descriptor. *)
Theorem field_to_bigquery_Order_Date (self : MSSQLToGCSOperator) :
  field_to_bigquery self
    (PyTuple [PyStr "Order Date"; PyStr "datetime2"; PyNone; PyNone; PyNone; PyNone; PyBool true])
  = Raise AttributeError
  /\ field_to_bigquery self
       (PyTuple [PyStr "Order Date"; PyStr "datetime2"; PyNone; PyNone; PyNone; PyNone; PyBool true])
     <> Ok (PyDict [("name", PyStr "Order_Date"); ("type", PyStr "DATETIME");
                    ("mode", PyStr "NULLABLE")]).
Proof. split; [reflexivity|discriminate]. Qed.

(** C9: a tuple of two elements fails, as every tuple does, but with the
    [AttributeError] of [self.type_map.get], raised before position 6 is
    read; only the empty tuple fails with [IndexError], at position 0. *)
Theorem field_to_bigquery_short_tuple (self : MSSQLToGCSOperator) :
  field_to_bigquery self (PyTuple [PyStr "Order Date"; PyStr "datetime2"]) = Raise AttributeError
  /\ field_to_bigquery self (PyTuple []) = Raise IndexError.
Proof. split; reflexivity. Qed.

(** ** [query] *)

(** C1: when every call to the driver succeeds, so that a cursor has been
    made and the statement executed on it, [query] hands back [None] and
    not that cursor. *)
Theorem query_returns_None {W : Type} (driver : Driver W) (self : MSSQLToGCSOperator)
    (w w1 w2 w3 w4 w5 : W) (mssql engine conn cur r : PyVal) :
  OdbcHook driver (mssql_conn_id self) w = Ok (mssql, w1) ->
  get_conn driver mssql w1 = Ok (engine, w2) ->
  raw_connection driver engine w2 = Ok (conn, w3) ->
  cursor driver conn w3 = Ok (cur, w4) ->
  execute driver cur (sql self) w4 = Ok (r, w5) ->
  query driver self w = Ok (PyNone, w5).
Proof.
  intros Hhook Hconn Hraw Hcur Hexec.
  unfold query, io_bind, io_ret.
  rewrite Hhook, Hconn, Hraw, Hcur, Hexec. reflexivity.
Qed.

Lemma query_returns_None_witness :
  cursor recording_driver (PyObject "Connection" 2) [] = Ok (PyObject "Cursor" 3, [])
  /\ query recording_driver export_customers []
     = Ok (PyNone, ["SELECT * FROM dbo.Customers;"]).
Proof.
  split; [reflexivity|].
  apply (query_returns_None recording_driver export_customers
           [] [] [] [] [] ["SELECT * FROM dbo.Customers;"]
           (PyObject "OdbcHook" 0) (PyObject "Engine" 1) (PyObject "Connection" 2)
           (PyObject "Cursor" 3) (PyObject "Cursor" 3));
    reflexivity.
Defined.

(** * Further properties of the operator's methods *)

(** ** [type_map] *)

Section TypeMapFurther.

Variable cls : PyVal.

Lemma schema_dict_values (k d : string) :
  schema_dict !! k = Some d -> d ∈ destination_tags.
Proof.
  intros Hk. apply schema_dict_listed in Hk.
  assert (H : Forall (fun p => p.2 ∈ destination_tags) listed_table).
  { apply (bool_decide_unpack _). vm_compute. exact I. }
  rewrite Forall_forall in H. exact (H (k, d) Hk).
Qed.

Lemma type_map_inv (x : PyVal) (d : string) :
  type_map cls x = Ok d ->
  exists n, Py.getattr___name__ x = Ok n
            /\ d = default "STRING" (schema_dict !! Py.lower n).
Proof.
  intros Hd. destruct (Py.getattr___name__ x) as [n|e] eqn:E.
  - exists n. split; [reflexivity|].
    rewrite (type_map_named cls x n E) in Hd. congruence.
  - rewrite (type_map_unnamed cls x e E) in Hd. discriminate.
Qed.

End TypeMapFurther.

(** X1: whatever [type_map] returns is one of the eight destination tags
    [INTEGER], [BOOLEAN], [STRING], [NUMERIC], [DATETIME], [DATE], [TIME],
    [FLOAT]. *)
Theorem type_map_range (cls x : PyVal) (d : string) :
  type_map cls x = Ok d -> d ∈ destination_tags.
Proof.
  intros Hd. destruct (type_map_inv cls x d Hd) as (n & _ & ->).
  destruct (schema_dict !! Py.lower n) as [d'|] eqn:E; simpl.
  - exact (schema_dict_values _ _ E).
  - apply (bool_decide_unpack _). vm_compute. exact I.
Qed.

Lemma type_map_range_witness :
  type_map MSSQLToGCSOperator_class (PyType "SmallMoney") = Ok "NUMERIC"
  /\ "NUMERIC" ∈ destination_tags.
Proof.
  split; [reflexivity|].
  apply (type_map_range MSSQLToGCSOperator_class (PyType "SmallMoney")). reflexivity.
Defined.

(** X2: the only exception [type_map] raises is [AttributeError]; the
    subscript [schema_dict[value.lower()]] is guarded by the membership test
    and never raises [KeyError]. *)
Theorem type_map_raises_only_AttributeError (cls x : PyVal) (e : PyExc) :
  type_map cls x = Raise e -> e = AttributeError.
Proof.
  intros He. destruct (Py.getattr___name__ x) as [n|e'] eqn:E.
  - rewrite (type_map_named cls x n E) in He. discriminate.
  - rewrite (type_map_unnamed cls x e' E) in He. congruence.
Qed.

Lemma type_map_raises_only_AttributeError_witness :
  type_map MSSQLToGCSOperator_class (PyInt 3) = Raise AttributeError
  /\ AttributeError = AttributeError.
Proof.
  split; [reflexivity|].
  apply (type_map_raises_only_AttributeError MSSQLToGCSOperator_class (PyInt 3)).
  reflexivity.
Defined.

(** X3: two arguments whose names are ASCII and differ only in the case of
    their letters are mapped alike, whether the names are in the table or
    not. *)
Theorem type_map_ignores_case (cls x y : PyVal) (n m : string) :
  Py.getattr___name__ x = Ok n ->
  Py.getattr___name__ y = Ok m ->
  Py.isascii n = true ->
  Py.isascii m = true ->
  Py.lower n = Py.lower m ->
  type_map cls x = type_map cls y.
Proof.
  intros Hx Hy _ _ Hnm.
  rewrite (type_map_named cls x n Hx), (type_map_named cls y m Hy), Hnm.
  reflexivity.
Qed.

Lemma type_map_ignores_case_witness :
  Py.isascii "SmallDateTime" = true
  /\ Py.isascii "SMALLdatetime" = true
  /\ Py.lower "SmallDateTime" = Py.lower "SMALLdatetime"
  /\ type_map MSSQLToGCSOperator_class (PyType "SmallDateTime")
     = type_map MSSQLToGCSOperator_class (PyMethod "SMALLdatetime").
Proof.
  split; [reflexivity|]. split; [reflexivity|]. split; [reflexivity|].
  apply (type_map_ignores_case MSSQLToGCSOperator_class
           (PyType "SmallDateTime") (PyMethod "SMALLdatetime")
           "SmallDateTime" "SMALLdatetime"); reflexivity.
Defined.

(** X4: a destination tag other than [STRING] is returned only for an
    argument whose lower-cased name is a key of the dictionary, and it is
    that key's entry. *)
Theorem type_map_not_STRING_from_table (cls x : PyVal) (d : string) :
  type_map cls x = Ok d ->
  d <> "STRING" ->
  exists n, Py.getattr___name__ x = Ok n /\ schema_dict !! Py.lower n = Some d.
Proof.
  intros Hd Hns. destruct (type_map_inv cls x d Hd) as (n & Hn & Heq).
  exists n. split; [exact Hn|].
  destruct (schema_dict !! Py.lower n) as [d'|] eqn:E; simpl in Heq.
  - congruence.
  - contradiction.
Qed.

Lemma type_map_not_STRING_from_table_witness :
  type_map MSSQLToGCSOperator_class (PyType "BigInt") = Ok "INTEGER"
  /\ "INTEGER" <> "STRING"
  /\ exists n, Py.getattr___name__ (PyType "BigInt") = Ok n
               /\ schema_dict !! Py.lower n = Some "INTEGER".
Proof.
  split; [reflexivity|]. split; [discriminate|].
  apply (type_map_not_STRING_from_table MSSQLToGCSOperator_class (PyType "BigInt") "INTEGER");
    [reflexivity|discriminate].
Defined.

(** ** [field_to_bigquery] *)

Section NameExpression.

Lemma sanitize_char_not_space (c : ascii) : sanitize_char c <> " "%char.
Proof.
  unfold sanitize_char. destruct (Ascii.eqb c " ") eqn:E; [discriminate|].
  intros ->. rewrite Ascii.eqb_refl in E. discriminate.
Qed.

Lemma sanitize_char_idemp (c : ascii) : sanitize_char (sanitize_char c) = sanitize_char c.
Proof.
  unfold sanitize_char at 1.
  destruct (Ascii.eqb (sanitize_char c) " ") eqn:E; [|reflexivity].
  apply Ascii.eqb_eq in E. destruct (sanitize_char_not_space c E).
Qed.

Lemma replace_space_idemp (s : string) :
  Py.replace " " "_" (Py.replace " " "_" s) = Py.replace " " "_" s.
Proof.
  induction s as [|c s IH]; [reflexivity|].
  rewrite !replace_space_cons, sanitize_char_idemp, IH. reflexivity.
Qed.

End NameExpression.



(** X6: the name entry [field[0].replace(" ", "_")], for a column name that
    is a string, evaluates to a string of the same length that holds an
    underscore where the name holds a space and the name's character
    everywhere else; it holds no space, and sanitising it again changes
    nothing. *)
Theorem name_expression_sanitised (field : PyVal) (name : string) :
  Py.getitem field 0 = Ok (PyStr name) ->
  exists name',
    (field0 ← Py.getitem field 0; Py.call_replace field0 " " "_") = Ok (PyStr name')
    /\ String.length name' = String.length name
    /\ (forall i, String.get i name' = sanitize_char <$> String.get i name)
    /\ (forall i, String.get i name' <> Some " "%char)
    /\ Py.call_replace (PyStr name') " " "_" = Ok (PyStr name').
Proof.
  intros H0. exists (Py.replace " " "_" name). rewrite H0.
  split; [reflexivity|]. split; [apply replace_space_length|].
  split; [apply replace_space_get|]. split.
  - intros i. rewrite replace_space_get.
    destruct (String.get i name) as [c|]; simpl; [|discriminate].
    intros [= Hc]. exact (sanitize_char_not_space c Hc).
  - simpl. rewrite replace_space_idemp. reflexivity.
Qed.

Lemma name_expression_sanitised_witness :
  Py.getitem (PyTuple [PyStr "Unit Price (net)"; PyType "Decimal"]) 0
  = Ok (PyStr "Unit Price (net)")
  /\ exists name',
       (field0 ← Py.getitem (PyTuple [PyStr "Unit Price (net)"; PyType "Decimal"]) 0;
        Py.call_replace field0 " " "_") = Ok (PyStr name')
       /\ String.length name' = String.length "Unit Price (net)"
       /\ (forall i, String.get i name' = sanitize_char <$> String.get i "Unit Price (net)")
       /\ (forall i, String.get i name' <> Some " "%char)
       /\ Py.call_replace (PyStr name') " " "_" = Ok (PyStr name').
Proof.
  split; [reflexivity|].
  apply (name_expression_sanitised
           (PyTuple [PyStr "Unit Price (net)"; PyType "Decimal"]) "Unit Price (net)").
  reflexivity.
Defined.

(** ** [query] *)

(** X7: [query] raises exactly the exception of the first driver call that
    fails: the hook's construction, [get_conn], [raw_connection], [cursor]
    or [execute], each tried only after the ones before it succeeded.  It
    raises nothing of its own and hides no failure. *)
Theorem query_raises_first_failure {W : Type} (driver : Driver W)
    (self : MSSQLToGCSOperator) (w : W) (e : PyExc) :
  query driver self w = Raise e <->
  OdbcHook driver (mssql_conn_id self) w = Raise e
  \/ exists mssql w1, OdbcHook driver (mssql_conn_id self) w = Ok (mssql, w1) /\
     (get_conn driver mssql w1 = Raise e
      \/ exists engine w2, get_conn driver mssql w1 = Ok (engine, w2) /\
         (raw_connection driver engine w2 = Raise e
          \/ exists conn w3, raw_connection driver engine w2 = Ok (conn, w3) /\
             (cursor driver conn w3 = Raise e
              \/ exists cur w4, cursor driver conn w3 = Ok (cur, w4) /\
                 execute driver cur (sql self) w4 = Raise e))).
Proof.
  unfold query, io_bind, io_ret.
  destruct (OdbcHook driver (mssql_conn_id self) w) as [[mssql w1]|e1] eqn:E1.
  2: { split; [intros [= ->]; left; reflexivity|].
       intros [[= ->]|(? & ? & [=] & _)]. reflexivity. }
  destruct (get_conn driver mssql w1) as [[engine w2]|e2] eqn:E2.
  2: { split; [intros [= ->]; right; eauto 10|].
       intros [[=]|(? & ? & [= <- <-] & [H|(? & ? & H & _)])]; congruence. }
  destruct (raw_connection driver engine w2) as [[conn w3]|e3] eqn:E3.
  2: { split; [intros [= ->]; right; eauto 20|].
       intros [[=]|(? & ? & [= <- <-] & [H|(? & ? & H & H')])]; [congruence|].
       rewrite E2 in H. injection H as <- <-.
       destruct H' as [H|(? & ? & H & _)]; congruence. }
  destruct (cursor driver conn w3) as [[cur w4]|e4] eqn:E4.
  2: { split; [intros [= ->]; right; eauto 20|].
       intros [[=]|(? & ? & [= <- <-] & [H|(? & ? & H & H')])]; [congruence|].
       rewrite E2 in H. injection H as <- <-.
       destruct H' as [H|(? & ? & H & H')]; [congruence|].
       rewrite E3 in H. injection H as <- <-.
       destruct H' as [H|(? & ? & H & _)]; congruence. }
  destruct (execute driver cur (sql self) w4) as [[r w5]|e5] eqn:E5.
  - split; [discriminate|].
    intros [[=]|(? & ? & [= <- <-] & [H|(? & ? & H & H')])]; [congruence|].
    rewrite E2 in H. injection H as <- <-.
    destruct H' as [H|(? & ? & H & H')]; [congruence|].
    rewrite E3 in H. injection H as <- <-.
    destruct H' as [H|(? & ? & H & H')]; [congruence|].
    rewrite E4 in H. injection H as <- <-. congruence.
  - split; [intros [= ->]; right; eauto 20|].
    intros [[=]|(? & ? & [= <- <-] & [H|(? & ? & H & H')])]; [congruence|].
    rewrite E2 in H. injection H as <- <-.
    destruct H' as [H|(? & ? & H & H')]; [congruence|].
    rewrite E3 in H. injection H as <- <-.
    destruct H' as [H|(? & ? & H & H')]; [congruence|].
    rewrite E4 in H. injection H as <- <-. congruence.
Qed.

(** X8: whenever [query] returns, the five driver calls have been made in
    order, each in the world the one before left, the statement executed is
    [self.sql] on the cursor of the connection opened for
    [self.mssql_conn_id], the world handed back is the one [execute] left,
    and the value returned is [None]. *)
Theorem query_return_inv {W : Type} (driver : Driver W)
    (self : MSSQLToGCSOperator) (w w' : W) (v : PyVal) :
  query driver self w = Ok (v, w') ->
  v = PyNone
  /\ exists mssql w1 engine w2 conn w3 cur w4 r,
       OdbcHook driver (mssql_conn_id self) w = Ok (mssql, w1)
       /\ get_conn driver mssql w1 = Ok (engine, w2)
       /\ raw_connection driver engine w2 = Ok (conn, w3)
       /\ cursor driver conn w3 = Ok (cur, w4)
       /\ execute driver cur (sql self) w4 = Ok (r, w').
Proof.
  unfold query, io_bind, io_ret.
  destruct (OdbcHook driver (mssql_conn_id self) w) as [[mssql w1]|e1] eqn:E1;
    [|discriminate].
  destruct (get_conn driver mssql w1) as [[engine w2]|e2] eqn:E2; [|discriminate].
  destruct (raw_connection driver engine w2) as [[conn w3]|e3] eqn:E3; [|discriminate].
  destruct (cursor driver conn w3) as [[cur w4]|e4] eqn:E4; [|discriminate].
  destruct (execute driver cur (sql self) w4) as [[r w5]|e5] eqn:E5; [|discriminate].
  intros [= <- <-]. split; [reflexivity|].
  exists mssql, w1, engine, w2, conn, w3, cur, w4, r. auto.
Qed.

Lemma query_return_inv_witness :
  query recording_driver export_customers ["SELECT 1;"]
  = Ok (PyNone, ["SELECT * FROM dbo.Customers;"; "SELECT 1;"])
  /\ exists mssql w1 engine w2 conn w3 cur w4 r,
       OdbcHook recording_driver "mssql_default" ["SELECT 1;"] = Ok (mssql, w1)
       /\ get_conn recording_driver mssql w1 = Ok (engine, w2)
       /\ raw_connection recording_driver engine w2 = Ok (conn, w3)
       /\ cursor recording_driver conn w3 = Ok (cur, w4)
       /\ execute recording_driver cur "SELECT * FROM dbo.Customers;" w4
          = Ok (r, ["SELECT * FROM dbo.Customers;"; "SELECT 1;"]).
Proof.
  split; [reflexivity|].
  apply (query_return_inv recording_driver export_customers ["SELECT 1;"]
           ["SELECT * FROM dbo.Customers;"; "SELECT 1;"] PyNone).
  reflexivity.
Defined.

(** The rejecting driver shows the last case of X7 at work. *)
Lemma query_rejected_statement :
  query rejecting_driver export_customers []
  = Raise (DriverError "SELECT * FROM dbo.Customers;").
Proof. reflexivity. Qed.
